(** * Alexios voice-mail skill: command parser and webhook dispatcher

    A shallow embedding of [cmd/skill] (the parsers [parseSendCommand],
    [parseReadCommand], [parseRegisterCommand] and the handler
    [app.webhook]) together with the [store.Store] interface the handler
    is written against.

    Go strings are byte sequences and are modelled as [string] (a list of
    [ascii] bytes).  Go's [int] is taken to be 64 bits wide. *)

From Stdlib Require Import ZArith Strings.String Strings.Ascii Numbers.DecimalString
  Numbers.DecimalZ Numbers.DecimalN Numbers.DecimalFacts.
From stdpp Require Import base option list strings gmap.

Local Open Scope Z_scope.
Local Open Scope string_scope.

(** ** The pieces of Go's standard library the handler calls *)

Module strings.

(** [strings.HasPrefix(s, prefix)]. *)
Fixpoint HasPrefix (s prefix : string) : bool :=
  match prefix, s with
  | EmptyString, _ => true
  | String p prefix', String c s' => if Ascii.eqb c p then HasPrefix s' prefix' else false
  | String _ _, EmptyString => false
  end.

(** [strings.Cut(s, sep)] for a one-byte separator: the text before and
    after the first separator, or [None] when there is none. *)
Fixpoint Cut (sep : ascii) (s : string) : option (string * string) :=
  match s with
  | EmptyString => None
  | String c s' =>
      if Ascii.eqb c sep then Some (EmptyString, s')
      else match Cut sep s' with
           | Some (before, after) => Some (String c before, after)
           | None => None
           end
  end.

(** [strings.SplitN(s, sep, n)] for a one-byte separator and [n >= 0]:
    no substring for [n = 0]; otherwise at most [n] substrings, the last
    of which is the unsplit remainder. *)
Fixpoint SplitN (s : string) (sep : ascii) (n : nat) : list string :=
  match n with
  | O => []
  | S O => [s]
  | S n' =>
      match Cut sep s with
      | Some (before, after) => before :: SplitN after sep n'
      | None => [s]
      end
  end.

(** [strings.Split(s, sep)] is [SplitN(s, sep, -1)]: every separator
    splits, so there are [Count(s, sep) + 1] substrings. *)
Fixpoint Count (s : string) (sep : ascii) : nat :=
  match s with
  | EmptyString => O
  | String c s' => if Ascii.eqb c sep then S (Count s' sep) else Count s' sep
  end.

Definition Split (s : string) (sep : ascii) : list string :=
  SplitN s sep (S (Count s sep)).

End strings.

Module strconv.

Definition intSize : Z := 64.
Definition maxInt : Z := 2 ^ (intSize - 1) - 1.
Definition minInt : Z := - 2 ^ (intSize - 1).

(** The value of a string of decimal digits; [None] when a byte is not a
    digit.  The empty string is rejected by the caller. *)
Definition digits (s : string) : option Z :=
  match NilEmpty.uint_of_string s with
  | Some d => Some (Z.of_uint d)
  | None => None
  end.

(** [strconv.Atoi(s)]: an optional sign, then one or more decimal digits;
    a syntax error ([None]) otherwise, a range error ([None]) when the
    value does not fit an [int]. *)
Definition Atoi (s : string) : option Z :=
  let '(neg, body) :=
    match s with
    | String "+" r => (false, r)
    | String "-" r => (true, r)
    | _ => (false, s)
    end in
  match body with
  | EmptyString => None
  | _ =>
      match digits body with
      | None => None
      | Some un =>
          let n := if neg then - un else un in
          if ((minInt <=? n)%Z && (n <=? maxInt)%Z)%bool then Some n else None
      end
  end.

(** [strconv.Itoa(i)], which is also what the verb [%d] prints. *)
Definition Itoa (i : Z) : string := NilZero.string_of_int (Z.to_int i).

End strconv.

(** ** Command parser *)

Definition space : ascii := " "%char.

(** [parseSendCommand]: "Send John Hello, how are you?" *)
Definition parseSendCommand (command : string) : string * string :=
  let parts := strings.SplitN command space 3 in
  if decide (length parts < 3)%nat then ("", "")
  else
    let username := default "" (parts !! 1%nat) in
    let message := default "" (parts !! 2%nat) in
    (username, message).

(** [parseReadCommand]: "Read 1".  The invalid index is [-1]. *)
Definition parseReadCommand (command : string) : Z :=
  let parts := strings.Split command space in
  if decide (length parts < 2)%nat then -1
  else
    match strconv.Atoi (default "" (parts !! 1%nat)) with
    | None => -1
    | Some index => if (index <? 1)%Z then -1 else index - 1
    end.

(** [parseRegisterCommand]: "Sign Up JohnDoe" *)
Definition parseRegisterCommand (command : string) : string :=
  let parts := strings.SplitN command space 3 in
  if decide (length parts < 3)%nat then ""
  else default "" (parts !! 2%nat).

(** ** Data the handler exchanges with its collaborators *)

Module time.

(** An instant, in seconds since the Unix epoch. *)
Definition Time : Type := Z.

(** A time zone: its name and the offset from UTC, in seconds, it
    prescribes at a given instant. *)
Record Location : Type := { name : string; offset : Time -> Z }.

(** [t.In(loc).Clock()]: hour, minute and second within the day. *)
Definition Clock (t : Time) (loc : Location) : Z * Z * Z :=
  let s := (t + offset loc t) mod 86400 in
  (s / 3600, (s mod 3600) / 60, s mod 60).

End time.

Module store.

(** [store.Message] *)
Record Message : Type :=
  { ID : Z; Sender : string; Time : time.Time; Payload : string }.

End store.

(** Go's [error] values as far as the handler can tell them apart: the
    sentinel [store.ErrConflict], an opaque error, and an error wrapping
    another one. *)
Inductive error : Type :=
  | ErrConflict
  | errorString (msg : string)
  | wrapError (msg : string) (err : error).

Global Instance error_eq_dec : EqDecision error.
Proof. solve_decision. Defined.

(** [errors.Is(err, target)] for a non-nil [target]: [err] or an error in
    its chain of wrapped errors equals [target]; [false] on a nil [err]. *)
Fixpoint errors_chain (err target : error) : bool :=
  if decide (err = target) then true
  else match err with
       | wrapError _ inner => errors_chain inner target
       | _ => false
       end.

Definition errors_Is (err : option error) (target : error) : bool :=
  match err with
  | None => false
  | Some e => errors_chain e target
  end.

Module models.

(** Modelled from the spec: the package [internal/models] is not part of
    the sources; the request and response envelopes follow section 6,
    [{ request: { type, command }, session: { new, user: { user_id } },
    timezone }] and [{ response: { text }, version }].  The nested request
    is kept flat: [Type_] is [req.Request.Type], [Command] is
    [req.Request.Command], [New] is [req.Session.New], [UserID] is
    [req.Session.User.UserID] and [Timezone] is [req.Timezone]. *)
Record Request : Type :=
  { Type_ : string; Command : string; New : bool; UserID : string; Timezone : string }.

Record Response : Type := { Text : string; Version : string }.

Definition TypeSimpleUtterance : string := "SimpleUtterance".

End models.

Module http.

Definition MethodPost : string := "POST".
Definition StatusOK : Z := 200.
Definition StatusBadRequest : Z := 400.
Definition StatusMethodNotAllowed : Z := 405.
Definition StatusUnprocessableEntity : Z := 422.
Definition StatusInternalServerError : Z := 500.

(** An inbound request: its method, and what [json.Decoder.Decode] makes
    of its body ([None] when decoding fails). *)
Record Request : Type := { Method : string; Body : option models.Request }.

(** What the handler has done to its [http.ResponseWriter]: the status
    passed to [WriteHeader] if it was called, the headers set, and the
    envelope encoded into the body if any. *)
Record ResponseWriter : Type :=
  { status : option Z; header : list (string * string); body : option models.Response }.

Definition fresh : ResponseWriter := {| status := None; header := []; body := None |}.

Definition WriteHeader (code : Z) (w : ResponseWriter) : ResponseWriter :=
  {| status := Some code; header := header w; body := body w |}.

Definition Header_Set (key value : string) (w : ResponseWriter) : ResponseWriter :=
  {| status := status w; header := (key, value) :: header w; body := body w |}.

Definition Encode (resp : models.Response) (w : ResponseWriter) : ResponseWriter :=
  {| status := status w; header := header w; body := Some resp |}.

(** The status the client sees: writing a body without [WriteHeader]
    sends 200. *)
Definition statusCode (w : ResponseWriter) : Z := default StatusOK (status w).

End http.

(** ** Effects: calls on the store and on the clock

    [webhook] is written against the interface [store.Store] and reads the
    wall clock and the time zone database.  Each such call is an operation
    whose answer the environment chooses; a Go result [(v, err)] is a pair
    whose second component is [None] for a nil error. *)

Inductive effect : Type -> Type :=
  | FindRecepient (username : string) : effect (string * option error)
  | ListMessages (userID : string) : effect (list store.Message * option error)
  | GetMessage (id : Z) : effect (option store.Message * option error)
  | SaveMessage (userID : string) (msg : store.Message) : effect (option error)
  | RegisterUser (userID username : string) : effect (option error)
  | Now : effect time.Time
  | LoadLocation (name : string) : effect (option time.Location).

(** Run-time panics the handler can raise. *)
Inductive panic : Type :=
  | IndexOutOfRange (index : Z) (len : nat)
  | NilDereference.

(** Handler code: a finite tree of calls. *)
Inductive prog (A : Type) : Type :=
  | Ret (a : A)
  | Panic (p : panic)
  | Call {X : Type} (e : effect X) (k : X -> prog A).

Arguments Ret {A} a.
Arguments Panic {A} p.
Arguments Call {A X} e k.

Fixpoint bind {A B : Type} (m : prog A) (f : A -> prog B) : prog B :=
  match m with
  | Ret a => f a
  | Panic p => Panic p
  | Call e k => Call e (fun x => bind (k x) f)
  end.

Definition call {X : Type} (e : effect X) : prog X := Call e Ret.

Global Instance prog_ret : MRet prog := fun A a => Ret a.
Global Instance prog_bind : MBind prog := fun A B f m => bind m f.

(** One answered call, as observed in an execution. *)
Inductive event : Type :=
  | Event {X : Type} (e : effect X) (answer : X).

(** An environment answers every call from its state [S]. *)
Record World (S : Type) : Type :=
  { answer : forall X : Type, effect X -> S -> X * S }.
Arguments answer {S} _ {X} _ _.

Inductive outcome (A : Type) : Type :=
  | Returned (a : A)
  | Panicked (p : panic).
Arguments Returned {A} a.
Arguments Panicked {A} p.

(** Running handler code in an environment: how it ended, the final state
    of the environment, and the calls made, in order. *)
Fixpoint run {S A : Type} (W : World S) (m : prog A) (s : S) : outcome A * S * list event :=
  match m with
  | Ret a => (Returned a, s, [])
  | Panic p => (Panicked p, s, [])
  | Call e k =>
      let '(x, s') := answer W e s in
      let '(o, s'', tr) := run W (k x) s' in
      (o, s'', Event e x :: tr)
  end.

(** ** The dispatcher *)

Section Webhook.

(** [time.Time.String], which the verb [%s] applies to a message's time. *)
Variable Time_String : time.Time -> string.

(** Where a command branch leaves the handler: it has returned after
    writing a bare status, or it falls through to the common tail with
    the text to pronounce. *)
Inductive flow : Type :=
  | Return (w : http.ResponseWriter)
  | Text (text : string).

Definition abort (code : Z) : prog flow :=
  mret (Return (http.WriteHeader code http.fresh)).

(** [case strings.HasPrefix(req.Request.Command, "Send")] *)
Definition sendBranch (req : models.Request) : prog flow :=
  let '(username, message) := parseSendCommand (models.Command req) in
  '(recepientID, err) ← call (FindRecepient username);
  if err is Some _ then abort http.StatusInternalServerError
  else
    now ← call Now;
    err ← call (SaveMessage recepientID
                  {| store.ID := 0;
                     store.Sender := models.UserID req;
                     store.Time := now;
                     store.Payload := message |});
    if err is Some _ then abort http.StatusInternalServerError
    else mret (Text "The message was sent successfully.").

(** [messages[messageIndex]] on a slice: a panic outside [0, len). *)
Definition index {A : Type} (l : list A) (i : Z) : option A :=
  if (i <? 0)%Z then None else l !! Z.to_nat i.

(** [case strings.HasPrefix(req.Request.Command, "Read")] *)
Definition readBranch (req : models.Request) : prog flow :=
  let messageIndex := parseReadCommand (models.Command req) in
  '(messages, err) ← call (ListMessages (models.UserID req));
  if err is Some _ then abort http.StatusInternalServerError
  else
    if (Z.of_nat (length messages) <? messageIndex)%Z then
      mret (Text "There is no such a message.")
    else
      match index messages messageIndex with
      | None => Panic (IndexOutOfRange messageIndex (length messages))
      | Some m =>
          let messageID := store.ID m in
          '(message, err) ← call (GetMessage messageID);
          if err is Some _ then abort http.StatusInternalServerError
          else
            match message with
            | None => Panic NilDereference
            | Some message =>
                mret (Text ("Message from " +:+ store.Sender message
                            +:+ ", was sent at " +:+ Time_String (store.Time message)
                            +:+ ": " +:+ store.Payload message))
            end
      end.

(** [case strings.HasPrefix(req.Request.Command, "Sign Up")] *)
Definition signUpBranch (req : models.Request) : prog flow :=
  let username := parseRegisterCommand (models.Command req) in
  err ← call (RegisterUser (models.UserID req) username);
  if bool_decide (err ≠ None) && negb (errors_Is err ErrConflict) then
    abort http.StatusInternalServerError
  else
    let text := "You have successfully been registered as " +:+ username in
    let text :=
      if errors_Is err ErrConflict
      then "Sorry, this name has already been used. Try another name."
      else text in
    mret (Text text).

(** [default:] *)
Definition defaultBranch (req : models.Request) : prog flow :=
  '(messages, err) ← call (ListMessages (models.UserID req));
  if err is Some _ then abort http.StatusInternalServerError
  else
    let text := "There is no new messages for you." in
    let text :=
      if (0 <? length messages)%nat
      then "There are " +:+ strconv.Itoa (Z.of_nat (length messages)) +:+ " new messages."
      else text in
    if models.New req then
      tz ← call (LoadLocation (models.Timezone req));
      match tz with
      | None => abort http.StatusBadRequest
      | Some tz =>
          now ← call Now;
          let '(hour, minute, _) := time.Clock now tz in
          Ret (Text ("Exact time " +:+ strconv.Itoa hour +:+ " hours, "
                     +:+ strconv.Itoa minute +:+ " minutes. " +:+ text))
      end
    else mret (Text text).

(** [switch true { ... }]: the first case that holds is taken. *)
Definition dispatch (req : models.Request) : prog flow :=
  if strings.HasPrefix (models.Command req) "Send" then sendBranch req
  else if strings.HasPrefix (models.Command req) "Read" then readBranch req
  else if strings.HasPrefix (models.Command req) "Sign Up" then signUpBranch req
  else defaultBranch req.

(** The common tail: the envelope, the content type, the encoded body. *)
Definition respond (text : string) : http.ResponseWriter :=
  let resp := {| models.Text := text; models.Version := "1.0" |} in
  http.Encode resp (http.Header_Set "Content-Type" "application/json" http.fresh).

Definition finish (f : flow) : prog http.ResponseWriter :=
  match f with
  | Return w => mret w
  | Text text => mret (respond text)
  end.

(** [webhook(w http.ResponseWriter, r *http.Request)], a method of [app] *)
Definition webhook (r : http.Request) : prog http.ResponseWriter :=
  if negb (String.eqb (http.Method r) http.MethodPost) then
    mret (http.WriteHeader http.StatusMethodNotAllowed http.fresh)
  else
    match http.Body r with
    | None => mret (http.WriteHeader http.StatusBadRequest http.fresh)
    | Some req =>
        if negb (String.eqb (models.Type_ req) models.TypeSimpleUtterance) then
          mret (http.WriteHeader http.StatusUnprocessableEntity http.fresh)
        else
          dispatch req ≫= finish
    end.

End Webhook.

(** ** Environments *)

(** The time zone database behind [time.LoadLocation], cut down to the
    zones used below; the empty name and ["UTC"] both load UTC. *)
Definition tzdata (name : string) : option time.Location :=
  if decide (name = "" ∨ name = "UTC") then
    Some {| time.name := "UTC"; time.offset := fun _ => 0 |}
  else if decide (name = "Europe/Moscow") then
    Some {| time.name := "Europe/Moscow"; time.offset := fun _ => 10800 |}
  else None.

Module MemStore.

(** Modelled from the spec: the implementations of [store.Store]
    ([internal/store/pg] and the in-memory variant) are not part of the
    sources.  This is the in-memory variant of section 9 with the
    contract of section 4.3: usernames are bound to identity tokens,
    mailboxes keep insertion order, message identifiers are assigned by
    the store and grow, and listing does not remove anything. *)
Record State : Type :=
  { users : gmap string string;
    messages : list (string * store.Message);
    clock : time.Time }.

Definition empty (now : time.Time) : State :=
  {| users := ∅; messages := []; clock := now |}.

Definition resolveUser (username : string) (s : State) : string * option error :=
  match users s !! username with
  | Some identity => (identity, None)
  | None => ("", Some (errorString "store: no such user"))
  end.

Definition listMailbox (identity : string) (s : State) : list store.Message :=
  (filter (fun rm => rm.1 = identity) (messages s)).*2.

Definition getMessage (id : Z) (s : State) : option store.Message * option error :=
  match filter (fun m => store.ID m = id) (messages s).*2 with
  | m :: _ => (Some m, None)
  | [] => (None, Some (errorString "store: no such message"))
  end.

Definition appendMessage (recipient : string) (msg : store.Message) (s : State) : State :=
  let id := Z.of_nat (length (messages s)) + 1 in
  let stored := {| store.ID := id; store.Sender := store.Sender msg;
                   store.Time := store.Time msg; store.Payload := store.Payload msg |} in
  {| users := users s; messages := messages s ++ [(recipient, stored)]; clock := clock s |}.

(** Modelled from the spec: [registerUser(identity, username) -> ok |
    conflict | storeError] is "a single atomic check-and-insert at the
    storage layer"; the in-memory variant has no storage failure. *)
Definition registerUser (identity username : string) (s : State) : option error * State :=
  match users s !! username with
  | Some _ => (Some ErrConflict, s)
  | None =>
      (None, {| users := <[username := identity]> (users s);
                messages := messages s; clock := clock s |})
  end.

Definition world : World State :=
  {| answer := fun X e =>
       match e in effect X return State -> X * State with
       | FindRecepient username => fun s => (resolveUser username s, s)
       | ListMessages userID => fun s => ((listMailbox userID s, None), s)
       | GetMessage id => fun s => (getMessage id s, s)
       | SaveMessage userID msg => fun s => (None, appendMessage userID msg s)
       | RegisterUser userID username => fun s => registerUser userID username s
       | Now => fun s => (clock s, s)
       | LoadLocation name => fun s => (tzdata name, s)
       end |}.

End MemStore.

(** A store that is down: every operation fails with the same opaque
    error.  The clock and the time zone database still work. *)
Definition unreachable : error := errorString "store: connection refused".

Definition downWorld : World time.Time :=
  {| answer := fun X e =>
       match e in effect X return time.Time -> X * time.Time with
       | FindRecepient _ => fun s => (("", Some unreachable), s)
       | ListMessages _ => fun s => (([], Some unreachable), s)
       | GetMessage _ => fun s => ((None, Some unreachable), s)
       | SaveMessage _ _ => fun s => (Some unreachable, s)
       | RegisterUser _ _ => fun s => (Some unreachable, s)
       | Now => fun s => (s, s)
       | LoadLocation name => fun s => (tzdata name, s)
       end |}.

(** Two handler invocations running concurrently.  Each call on the
    environment is atomic; a schedule says which invocation makes the
    next call ([true] for the first).  A finished invocation is skipped,
    and when the schedule is used up the first invocation runs to its end,
    then the second. *)
Fixpoint run2 {S A B : Type} (W : World S) (schedule : list bool)
    (m1 : prog A) (m2 : prog B) (s : S) : outcome A * outcome B * S :=
  match schedule with
  | [] =>
      let '(o1, s1, _) := run W m1 s in
      let '(o2, s2, _) := run W m2 s1 in
      (o1, o2, s2)
  | true :: schedule' =>
      match m1 with
      | Call e k => let '(x, s') := answer W e s in run2 W schedule' (k x) m2 s'
      | _ => run2 W schedule' m1 m2 s
      end
  | false :: schedule' =>
      match m2 with
      | Call e k => let '(x, s') := answer W e s in run2 W schedule' m1 (k x) s'
      | _ => run2 W schedule' m1 m2 s
      end
  end.

(** ** Fixtures: concrete requests and store states *)

(** A well-formed POST carrying a [SimpleUtterance]. *)
Definition utterance (command : string) (new : bool) (userID tz : string) : models.Request :=
  {| models.Type_ := "SimpleUtterance"; models.Command := command;
     models.New := new; models.UserID := userID; models.Timezone := tz |}.

Definition post (command : string) (new : bool) (userID tz : string) : http.Request :=
  {| http.Method := "POST"; http.Body := Some (utterance command new userID tz) |}.

(** A stand-in for [time.Time.String]: the instant in decimal. *)
Definition unixString (t : time.Time) : string := strconv.Itoa t.

(** How a run ended, the calls it made, and the state it left. *)
Definition result {S A : Type} (x : outcome A * S * list event) : outcome A := x.1.1.
Definition trace {S A : Type} (x : outcome A * S * list event) : list event := x.2.
Definition final {S A : Type} (x : outcome A * S * list event) : S := x.1.2.

(** An empty store at 2023-11-14 22:13:20 UTC. *)
Definition emptyStore : MemStore.State := MemStore.empty 1700000000.


(** The store after identity [u1] has registered as John. *)
Definition johnStore : MemStore.State :=
  final (run MemStore.world (webhook unixString (post "Sign Up John" true "u1" "UTC")) emptyStore).

(** The store after, in addition, identity [u2] has sent John one message. *)
Definition oneMessageStore : MemStore.State :=
  final (run MemStore.world
           (webhook unixString (post "Send John Hello there" false "u2" "UTC")) johnStore).

(** A request that passes the three gates of the handler: it is a POST,
    its body decodes to [req], and [req] is a simple utterance. *)
Definition accepted (r : http.Request) (req : models.Request) : Prop :=
  http.Method r = http.MethodPost
  ∧ http.Body r = Some req
  ∧ models.Type_ req = models.TypeSimpleUtterance.


(** ** The earlier handlers

    The repository keeps two earlier forms of the handler: one that has no
    store at all, and one that lists the mailbox but knows no commands. *)

Module Stateless.

(** [func webhook(w http.ResponseWriter, r *http.Request)] of
    [cmd/skill/main.go], before the store existed. *)
Definition webhook (r : http.Request) : prog http.ResponseWriter :=
  if negb (String.eqb (http.Method r) http.MethodPost) then
    mret (http.WriteHeader http.StatusMethodNotAllowed http.fresh)
  else
    match http.Body r with
    | None => mret (http.WriteHeader http.StatusBadRequest http.fresh)
    | Some req =>
        if negb (String.eqb (models.Type_ req) models.TypeSimpleUtterance) then
          mret (http.WriteHeader http.StatusUnprocessableEntity http.fresh)
        else
          let text := "There are no new messages for you." in
          if models.New req then
            tz ← call (LoadLocation (models.Timezone req));
            match tz with
            | None => mret (http.WriteHeader http.StatusBadRequest http.fresh)
            | Some tz =>
                now ← call Now;
                let '(hour, minute, _) := time.Clock now tz in
                Ret (respond ("Exact time " +:+ strconv.Itoa hour +:+ " hours, "
                              +:+ strconv.Itoa minute +:+ " minutes. " +:+ text))
            end
          else mret (respond text)
    end.

End Stateless.

Module Listing.

(** The [webhook] method of [app] when it only counted the mailbox. *)
Definition webhook (r : http.Request) : prog http.ResponseWriter :=
  if negb (String.eqb (http.Method r) http.MethodPost) then
    mret (http.WriteHeader http.StatusMethodNotAllowed http.fresh)
  else
    match http.Body r with
    | None => mret (http.WriteHeader http.StatusBadRequest http.fresh)
    | Some req =>
        if negb (String.eqb (models.Type_ req) models.TypeSimpleUtterance) then
          mret (http.WriteHeader http.StatusUnprocessableEntity http.fresh)
        else
          '(messages, err) ← call (ListMessages (models.UserID req));
          if err is Some _ then
            mret (http.WriteHeader http.StatusInternalServerError http.fresh)
          else
            let text := "There are no new messages for you." in
            let text :=
              if (0 <? length messages)%nat
              then "There are " +:+ strconv.Itoa (Z.of_nat (length messages))
                   +:+ " new messages for you."
              else text in
            if models.New req then
              tz ← call (LoadLocation (models.Timezone req));
              match tz with
              | None => mret (http.WriteHeader http.StatusBadRequest http.fresh)
              | Some tz =>
                  now ← call Now;
                  let '(hour, minute, _) := time.Clock now tz in
                  Ret (respond ("Exact time " +:+ strconv.Itoa hour +:+ " hours, "
                                +:+ strconv.Itoa minute +:+ " minutes. " +:+ text))
              end
            else mret (respond text)
    end.

End Listing.

(** ** Vocabulary for statements about every execution *)

(** A property of the calls made and of the way the code ended, on every
    path through the code, whatever the environment answers. *)
Fixpoint every_path {A : Type} (R : list event → outcome A → Prop) (m : prog A) : Prop :=
  match m with
  | Ret a => R [] (Returned a)
  | Panic p => R [] (Panicked p)
  | Call e k => ∀ x, every_path (λ tr o, R (Event e x :: tr) o) (k x)
  end.

Definition is_err (err : option error) : bool :=
  if err is Some _ then true else false.

(** A store call whose answer makes the handler give up: a non-nil error,
    except that a conflict from [RegisterUser] is not a failure. *)
Definition failed_answer {X : Type} (e : effect X) : X → bool :=
  match e in effect X return X → bool with
  | FindRecepient _ => λ x, is_err x.2
  | ListMessages _ => λ x, is_err x.2
  | GetMessage _ => λ x, is_err x.2
  | SaveMessage _ _ => λ err, is_err err
  | RegisterUser _ _ => λ err, is_err err && negb (errors_Is err ErrConflict)
  | Now => λ _, false
  | LoadLocation _ => λ _, false
  end.

Definition failed (ev : event) : bool :=
  match ev with Event e x => failed_answer e x end.

(** The calls that change the store. *)
Definition writes (ev : event) : bool :=
  match ev with
  | Event (SaveMessage _ _) _ => true
  | Event (RegisterUser _ _) _ => true
  | Event _ _ => false
  end.

(** A [SaveMessage] that returned no error. *)
Definition saved (ev : event) : bool :=
  match ev with
  | Event (SaveMessage _ _) None => true
  | Event _ _ => false
  end.


(** A time zone that failed to load. *)
Definition zone_missing (ev : event) : bool :=
  match ev with
  | Event (LoadLocation _) None => true
  | Event _ _ => false
  end.



(** * Properties *)

(** ** Splitting *)

Section Splitting.

Variable sep : ascii.

Lemma Cut_None s : strings.Cut sep s = None ↔ strings.Count s sep = O.
Proof.
  induction s as [|c s IH]; simpl; [done|].
  destruct (Ascii.eqb c sep); [done|].
  destruct (strings.Cut sep s) as [[b a]|]; [|done].
  split; [done|]. intros H. by apply IH in H.
Qed.

Lemma Cut_Some s before after :
  strings.Cut sep s = Some (before, after) →
  s = before +:+ String sep after ∧ strings.Count before sep = O
  ∧ strings.Count s sep = S (strings.Count after sep).
Proof.
  revert before. induction s as [|c s IH]; intros before; simpl; [done|].
  destruct (Ascii.eqb_spec c sep) as [->|Hne].
  - intros [= <- <-]. done.
  - destruct (strings.Cut sep s) as [[b a]|]; [|done].
    intros [= <- <-]. destruct (IH b eq_refl) as (-> & Hb & Hc).
    simpl. destruct (Ascii.eqb_spec c sep); [done|]. done.
Qed.

Lemma Cut_app before after :
  strings.Count before sep = O →
  strings.Cut sep (before +:+ String sep after) = Some (before, after).
Proof.
  induction before as [|c b IH]; simpl.
  - by rewrite Ascii.eqb_refl.
  - destruct (Ascii.eqb c sep); [done|]. intros H. by rewrite (IH H).
Qed.

Lemma SplitN_length s n :
  length (strings.SplitN s sep (S n)) = Nat.min (S n) (S (strings.Count s sep)).
Proof.
  revert s. induction n as [|n IH]; intros s; [done|].
  change (strings.SplitN s sep (S (S n))) with
    (match strings.Cut sep s with
     | Some (before, after) => before :: strings.SplitN after sep (S n)
     | None => [s]
     end).
  destruct (strings.Cut sep s) as [[b a]|] eqn:Hcut.
  - apply Cut_Some in Hcut as (_ & _ & ->). rewrite length_cons, IH. lia.
  - apply Cut_None in Hcut as ->. done.
Qed.



Lemma SplitN_3_inv s a b c :
  strings.SplitN s sep 3 = [a; b; c] →
  s = a +:+ String sep (b +:+ String sep c)
  ∧ strings.Count a sep = O ∧ strings.Count b sep = O.
Proof.
  change (strings.SplitN s sep 3) with
    (match strings.Cut sep s with
     | Some (before, after) =>
         before :: match strings.Cut sep after with
                   | Some (before', after') => [before'; after']
                   | None => [after]
                   end
     | None => [s]
     end).
  destruct (strings.Cut sep s) as [[x r]|] eqn:H1; [|done].
  destruct (strings.Cut sep r) as [[y r']|] eqn:H2; [|done].
  intros [= <- <- <-].
  apply Cut_Some in H1 as (-> & Ha & _). apply Cut_Some in H2 as (-> & Hb & _). done.
Qed.


End Splitting.

(** ** Decimal numerals *)







(** ** Command parser *)

Lemma SplitN_3_le (s : string) : (length (strings.SplitN s space 3) ≤ 3)%nat.
Proof. rewrite SplitN_length. lia. Qed.






(** ** Prefixes *)

Lemma HasPrefix_inv (s prefix : string) :
  strings.HasPrefix s prefix = true → ∃ rest, s = prefix +:+ rest.
Proof.
  revert s. induction prefix as [|p prefix IH]; intros s; simpl.
  - intros _. by exists s.
  - destruct s as [|c s]; simpl; [done|].
    destruct (Ascii.eqb_spec c p) as [->|]; [|done].
    intros [rest ->]%IH. by exists rest.
Qed.

(** The three keywords exclude one another: a command that starts with
    one of them starts with no other. *)
Lemma Read_not_Send (command : string) :
  strings.HasPrefix command "Read" = true → strings.HasPrefix command "Send" = false.
Proof. by intros [rest ->]%HasPrefix_inv. Qed.

Lemma SignUp_not_Send_Read (command : string) :
  strings.HasPrefix command "Sign Up" = true →
  strings.HasPrefix command "Send" = false ∧ strings.HasPrefix command "Read" = false.
Proof. by intros [rest ->]%HasPrefix_inv. Qed.

(** ** Running the handler *)

Section Dispatcher.

Context {S : Type} (W : World S).
Variable Time_String : time.Time → string.

Lemma run_call {X A : Type} (e : effect X) (k : X → prog A) (s : S) :
  run W (call e ≫= k) s =
    let '(x, s') := answer W e s in
    let '(o, s'', tr) := run W (k x) s' in
    (o, s'', Event e x :: tr).
Proof. done. Qed.

Lemma run_finish (f : flow) (s : S) :
  run W (finish f) s =
    (Returned match f with Return w => w | Text text => respond text end, s, []).
Proof. by destruct f. Qed.

Lemma run_abort (code : Z) (s : S) :
  run W (abort code ≫= finish) s = (Returned (http.WriteHeader code http.fresh), s, []).
Proof. done. Qed.

Lemma run_text (text : string) (s : S) :
  run W (mret (Text text) ≫= finish) s = (Returned (respond text), s, []).
Proof. done. Qed.

Lemma bind_call {X A B : Type} (e : effect X) (k : X → prog A) (f : A → prog B) :
  (call e ≫= k) ≫= f = call e ≫= (λ x, k x ≫= f).
Proof. done. Qed.

Lemma webhook_accepted (r : http.Request) (req : models.Request) :
  accepted r req → webhook Time_String r = dispatch Time_String req ≫= finish.
Proof.
  intros (Hm & Hb & Ht). unfold webhook. rewrite Hm, Hb, Ht. done.
Qed.

Lemma webhook_refused (r : http.Request) :
  (∀ req, ¬ accepted r req) →
  ∃ code, webhook Time_String r = Ret (http.WriteHeader code http.fresh).
Proof.
  intros Hno. unfold webhook.
  destruct (String.eqb_spec (http.Method r) http.MethodPost) as [Hm|Hm]; simpl; [|by eexists].
  destruct (http.Body r) as [req|] eqn:Hb; [|by eexists].
  destruct (String.eqb_spec (models.Type_ req) models.TypeSimpleUtterance) as [Ht|Ht];
    simpl; [|by eexists].
  by destruct (Hno req).
Qed.

(** C8. The validation gate.  A method other than POST ends the request
    with 405; a POST whose body does not decode, with 400; a decoded
    request whose type is not "SimpleUtterance", with 422.  Each of the
    three paths writes the bare status, encodes no envelope and calls
    neither the store nor the clock.  A request that passes the three
    gates is handed to the command branches, and an execution that makes
    any call comes from such a request. *)
Theorem webhook_gate (r : http.Request) (s : S) :
  (http.Method r ≠ "POST" →
     run W (webhook Time_String r) s = (Returned (http.WriteHeader 405 http.fresh), s, []))
  ∧ (http.Method r = "POST" → http.Body r = None →
     run W (webhook Time_String r) s = (Returned (http.WriteHeader 400 http.fresh), s, []))
  ∧ (∀ req, http.Method r = "POST" → http.Body r = Some req →
       models.Type_ req ≠ "SimpleUtterance" →
       run W (webhook Time_String r) s = (Returned (http.WriteHeader 422 http.fresh), s, []))
  ∧ (∀ req, http.Method r = "POST" → http.Body r = Some req →
       models.Type_ req = "SimpleUtterance" →
       webhook Time_String r = dispatch Time_String req ≫= finish)
  ∧ (trace (run W (webhook Time_String r) s) ≠ [] → ∃ req, accepted r req)
  ∧ (∀ code, http.body (http.WriteHeader code http.fresh) = None
             ∧ http.statusCode (http.WriteHeader code http.fresh) = code).
Proof.
  split_and!.
  - intros Hm. unfold webhook.
    by destruct (String.eqb_spec (http.Method r) http.MethodPost).
  - intros Hm Hb. unfold webhook. by rewrite Hm, Hb.
  - intros req Hm Hb Ht. unfold webhook. rewrite Hm, Hb.
    by destruct (String.eqb_spec (models.Type_ req) models.TypeSimpleUtterance).
  - intros req Hm Hb Ht. by apply webhook_accepted.
  - intros Htrace.
    destruct (http.Body r) as [req|] eqn:Hb.
    + destruct (decide (http.Method r = http.MethodPost
                        ∧ models.Type_ req = models.TypeSimpleUtterance)) as [[Hm Ht]|Hno].
      { by exists req. }
      destruct (webhook_refused r) as [code Hcode]; [|by rewrite Hcode in Htrace].
      intros req' (Hm & Hb' & Ht). rewrite Hb in Hb'. injection Hb' as <-. by apply Hno.
    + destruct (webhook_refused r) as [code Hcode]; [|by rewrite Hcode in Htrace].
      intros req' (_ & Hb' & _). by rewrite Hb in Hb'.
  - done.
Qed.

End Dispatcher.

Section Branches.

Context {S : Type} (W : World S).
Variable Time_String : time.Time → string.





(** The bounds check of the Read branch, [len(messages) < messageIndex]:
    an index strictly beyond the length is answered with "There is no such
    a message.", while a negative index and the index equal to the length
    pass the check and the slice access panics. *)
Lemma read_bounds (r : http.Request) (req : models.Request) (s s1 : S)
    (messages : list store.Message) :
  accepted r req →
  strings.HasPrefix (models.Command req) "Read" = true →
  answer W (ListMessages (models.UserID req)) s = ((messages, None), s1) →
  let i := parseReadCommand (models.Command req) in
  let listed := Event (ListMessages (models.UserID req)) (messages, None) in
  ((Z.of_nat (length messages) < i)%Z →
     run W (webhook Time_String r) s
       = (Returned (respond "There is no such a message."), s1, [listed]))
  ∧ ((i < 0)%Z ∨ i = Z.of_nat (length messages) →
     run W (webhook Time_String r) s
       = (Panicked (IndexOutOfRange i (length messages)), s1, [listed])).
Proof.
  intros Hacc Hread Hlist i listed.
  rewrite (webhook_accepted _ _ _ Hacc). unfold dispatch.
  rewrite (Read_not_Send _ Hread), Hread. unfold readBranch. fold i.
  rewrite bind_call, run_call, Hlist. cbv beta iota.
  split.
  - intros Hbeyond. by destruct (Z.ltb_spec (Z.of_nat (length messages)) i); [|lia].
  - intros Hedge. destruct (Z.ltb_spec (Z.of_nat (length messages)) i); [lia|].
    unfold index. destruct (Z.ltb_spec i 0) as [|Hpos]; [done|].
    destruct Hedge as [|Hlen]; [lia|].
    rewrite (proj2 (lookup_ge_None messages (Z.to_nat i))); [done|lia].
Qed.


End Branches.

(** ** Registration under concurrency *)

Section Race.

Variables (u id1 id2 : string).

Lemma run2_done {A B : Type} (schedule : list bool) (a : A) (b : B) (s : MemStore.State) :
  run2 MemStore.world schedule (Ret a) (Ret b) s = (Returned a, Returned b, s).
Proof. induction schedule as [|[] schedule IH]; done. Qed.

Lemma registerUser_taken (identity : string) (s : MemStore.State) :
  is_Some (MemStore.users s !! u) →
  MemStore.registerUser identity u s = (Some ErrConflict, s).
Proof. intros [owner Howner]. unfold MemStore.registerUser. by rewrite Howner. Qed.

Lemma registerUser_free (identity : string) (s : MemStore.State) :
  MemStore.users s !! u = None →
  ∃ s', MemStore.registerUser identity u s = (None, s')
        ∧ MemStore.users s' !! u = Some identity.
Proof.
  intros Hfree. unfold MemStore.registerUser. rewrite Hfree.
  eexists. split; [done|]. simpl. by rewrite lookup_insert_eq.
Qed.

(** Once the name is taken, the invocation still to run sees a conflict,
    whatever the schedule. *)
Lemma run2_second_late {A : Type} (schedule : list bool) (a : A) (s : MemStore.State) :
  is_Some (MemStore.users s !! u) →
  run2 MemStore.world schedule (Ret a) (call (RegisterUser id2 u)) s
    = (Returned a, Returned (Some ErrConflict), s).
Proof.
  intros Htaken. induction schedule as [|[] schedule IH]; simpl.
  - by rewrite (registerUser_taken id2 s Htaken).
  - exact IH.
  - rewrite (registerUser_taken id2 s Htaken). apply run2_done.
Qed.

Lemma run2_first_late {B : Type} (schedule : list bool) (b : B) (s : MemStore.State) :
  is_Some (MemStore.users s !! u) →
  run2 MemStore.world schedule (call (RegisterUser id1 u)) (Ret b) s
    = (Returned (Some ErrConflict), Returned b, s).
Proof.
  intros Htaken. induction schedule as [|[] schedule IH]; simpl.
  - by rewrite (registerUser_taken id1 s Htaken).
  - rewrite (registerUser_taken id1 s Htaken). apply run2_done.
  - exact IH.
Qed.

(** C2. Two invocations of [registerUser] for the same username, run
    concurrently against a store in which the name is unbound: under
    every schedule exactly one returns success and the other returns the
    conflict, and the name ends up bound to the identity that succeeded. *)
Theorem registerUser_race (schedule : list bool) (s : MemStore.State) :
  MemStore.users s !! u = None →
  ∃ s',
    (run2 MemStore.world schedule
       (call (RegisterUser id1 u)) (call (RegisterUser id2 u)) s
       = (Returned None, Returned (Some ErrConflict), s')
     ∧ MemStore.users s' !! u = Some id1)
    ∨ (run2 MemStore.world schedule
         (call (RegisterUser id1 u)) (call (RegisterUser id2 u)) s
         = (Returned (Some ErrConflict), Returned None, s')
       ∧ MemStore.users s' !! u = Some id2).
Proof.
  intros Hfree.
  destruct (registerUser_free id1 s Hfree) as (s1 & Hfirst & Hbound1).
  destruct (registerUser_free id2 s Hfree) as (s2 & Hsecond & Hbound2).
  destruct schedule as [|[] schedule]; simpl.
  - exists s1. left. rewrite Hfirst. simpl.
    by rewrite (registerUser_taken id2 s1 (mk_is_Some _ _ Hbound1)).
  - exists s1. left. rewrite Hfirst.
    by rewrite (run2_second_late schedule None s1 (mk_is_Some _ _ Hbound1)).
  - exists s2. right. rewrite Hsecond.
    by rewrite (run2_first_late schedule None s2 (mk_is_Some _ _ Hbound2)).
Qed.

End Race.

(** ** The properties at concrete requests *)

(** C1. The Read branch at the edge of the mailbox.  Reading message 1 of
    an empty mailbox, reading message 2 of a mailbox that holds one message,
    and a Read command whose index is invalid each pass the bounds check and
    panic on the slice access: no reply is written.  Only an index strictly
    beyond the length is answered with "There is no such a message.". *)
Theorem read_at_the_edge_panics :
  result (run MemStore.world (webhook unixString (post "Read 1" false "u1" "UTC")) emptyStore)
    = Panicked (IndexOutOfRange 0 0)
  ∧ result (run MemStore.world (webhook unixString (post "Read 2" false "u1" "UTC"))
              oneMessageStore)
    = Panicked (IndexOutOfRange 1 1)
  ∧ result (run MemStore.world (webhook unixString (post "Read 0" false "u1" "UTC"))
              oneMessageStore)
    = Panicked (IndexOutOfRange (-1) 1)
  ∧ result (run MemStore.world (webhook unixString (post "Read 3" false "u1" "UTC"))
              oneMessageStore)
    = Returned (respond "There is no such a message.").
Proof. split_and!; by vm_compute. Qed.



(** ** The theorems at work *)




Lemma webhook_gate_witness :
  run downWorld (webhook unixString {| http.Method := "GET"; http.Body := None |}) 0
    = (Returned (http.WriteHeader 405 http.fresh), 0, [])
  ∧ run downWorld (webhook unixString {| http.Method := "POST"; http.Body := None |}) 0
    = (Returned (http.WriteHeader 400 http.fresh), 0, [])
  ∧ run downWorld
      (webhook unixString
         {| http.Method := "POST";
            http.Body := Some {| models.Type_ := "ButtonPressed"; models.Command := "Read 1";
                                 models.New := false; models.UserID := "u1";
                                 models.Timezone := "UTC" |} |}) 0
    = (Returned (http.WriteHeader 422 http.fresh), 0, [])
  ∧ (∃ req, accepted (post "Read 1" false "u1" "UTC") req).
Proof.
  split_and!.
  - apply (webhook_gate downWorld unixString {| http.Method := "GET"; http.Body := None |} 0).
    discriminate.
  - apply (webhook_gate downWorld unixString {| http.Method := "POST"; http.Body := None |} 0);
      reflexivity.
  - eapply (webhook_gate downWorld unixString); [reflexivity..|discriminate].
  - apply (webhook_gate downWorld unixString (post "Read 1" false "u1" "UTC") 0).
    discriminate.
Defined.





Lemma registerUser_race_witness :
  MemStore.users emptyStore !! "John" = None
  ∧ ∃ s',
      (run2 MemStore.world [false; true]
         (call (RegisterUser "u1" "John")) (call (RegisterUser "u2" "John")) emptyStore
         = (Returned None, Returned (Some ErrConflict), s')
       ∧ MemStore.users s' !! "John" = Some "u1")
      ∨ (run2 MemStore.world [false; true]
           (call (RegisterUser "u1" "John")) (call (RegisterUser "u2" "John")) emptyStore
           = (Returned (Some ErrConflict), Returned None, s')
         ∧ MemStore.users s' !! "John" = Some "u2").
Proof.
  split; [reflexivity|].
  exact (registerUser_race "John" "u1" "u2" [false; true] emptyStore eq_refl).
Defined.

(** * Further properties of the handler *)

(** ** Every execution *)

Lemma every_path_run {S A : Type} (W : World S) (m : prog A) (s : S)
    (R : list event → outcome A → Prop) :
  every_path R m → R (trace (run W m s)) (result (run W m s)).
Proof.
  revert s R. induction m as [a|p|X e k IH]; intros s R HR; [done..|].
  simpl in *. destruct (answer W e s) as [x s1].
  specialize (IH x s1 _ (HR x)).
  by destruct (run W (k x) s1) as [[o s2] tr].
Qed.

(** Walks every path of the handler: each test of the code and each answer
    it inspects becomes a case. *)
Ltac walk :=
  unfold webhook, dispatch, sendBranch, readBranch, signUpBranch, defaultBranch,
    finish, abort, index;
  repeat first [ progress simpl | progress intros | case_match ];
  repeat match goal with x : option error |- _ => destruct x end;
  simpl in *; try done.

Ltac close :=
  simpl in *;
  repeat match goal with
         | H : errors_chain _ _ = _ |- _ => rewrite H in *; clear H
         end;
  simpl in *; try done.

Section Executions.

Context {S : Type} (W : World S).
Variable Time_String : time.Time → string.


(** X2. A failed store call ends the request: no call is made after one.
    A handler that returns sends 500 exactly when its last call was a store
    call that failed (a conflict from [RegisterUser] does not count), and it
    writes the envelope only if no call failed. *)
Theorem webhook_500_iff_store_failure (r : http.Request) (s : S) :
  let out := run W (webhook Time_String r) s in
  Forall (λ ev, failed ev = false) (removelast (trace out))
  ∧ (∀ w, result out = Returned w →
       (http.statusCode w = 500 ↔ ∃ ev, last (trace out) = Some ev ∧ failed ev = true)
       ∧ (http.status w = None → Forall (λ ev, failed ev = false) (trace out))).
Proof.
  apply (every_path_run W (webhook Time_String r) s
           (λ tr o, Forall (λ ev, failed ev = false) (removelast tr)
                    ∧ (∀ w, o = Returned w →
                         (http.statusCode w = 500
                          ↔ ∃ ev, last tr = Some ev ∧ failed ev = true)
                         ∧ (http.status w = None → Forall (λ ev, failed ev = false) tr)))).
  walk.
  all: split; [repeat constructor|].
  all: intros w Hw; simplify_eq; simpl.
  all: split; [split; [first [done|intros _; eexists; split; [reflexivity|]]
                      |intros (ev & Hev & Hfailed); simplify_eq]
              |intros Hst; try done; repeat constructor].
  all: close.
Qed.

(** X3. A handler that returns sends 400 in exactly two situations: the
    request is a POST whose body does not decode, in which case no call was
    made, or the last call was a time zone that failed to load. *)
Theorem webhook_400_iff (r : http.Request) (s : S) (w : http.ResponseWriter) :
  let out := run W (webhook Time_String r) s in
  result out = Returned w →
  (http.statusCode w = 400
   ↔ (http.Method r = "POST" ∧ http.Body r = None ∧ trace out = [])
     ∨ (∃ ev, last (trace out) = Some ev ∧ zone_missing ev = true)).
Proof.
  intros out. subst out. revert w.
  apply (every_path_run W (webhook Time_String r) s
           (λ tr o, ∀ w, o = Returned w →
              (http.statusCode w = 400
               ↔ (http.Method r = "POST" ∧ http.Body r = None ∧ tr = [])
                 ∨ (∃ ev, last tr = Some ev ∧ zone_missing ev = true)))).
  walk.
  all: intros; simplify_eq; simpl.
  all: split; [intros Hcode|intros [(Hm & Hb & Htr)|(ev & Hev & Hz)]].
  all: simplify_eq; simpl in *; try done.
  - by rewrite Hm in H.
  - right. by eexists.
  - left. split_and!; try done.
    by destruct (String.eqb_spec (http.Method r) http.MethodPost).
Qed.

End Executions.

Section Writes.

Context {S : Type} (W : World S).
Variable Time_String : time.Time → string.

(** X4. One request makes at most three calls, and only the last of them
    can change the store: [SaveMessage] and [RegisterUser] are never
    followed by another call, so a request performs at most one write. *)
Theorem webhook_write_is_last (r : http.Request) (s : S) :
  let out := run W (webhook Time_String r) s in
  (length (trace out) ≤ 3)%nat
  ∧ Forall (λ ev, writes ev = false) (removelast (trace out)).
Proof.
  apply (every_path_run W (webhook Time_String r) s
           (λ tr _, (length tr ≤ 3)%nat
                    ∧ Forall (λ ev, writes ev = false) (removelast tr))).
  walk.
  all: split; [simpl; lia|repeat constructor].
Qed.

(** X5. A request that changes the store is an accepted request whose
    command starts with "Send" or with "Sign Up": the Read branch and the
    status query only read, and a refused request calls nothing. *)
Theorem webhook_writes_only_on_send_and_sign_up (r : http.Request) (s : S) :
  Exists (λ ev, writes ev = true) (trace (run W (webhook Time_String r) s)) →
  ∃ req, accepted r req
         ∧ (strings.HasPrefix (models.Command req) "Send" = true
            ∨ strings.HasPrefix (models.Command req) "Sign Up" = true).
Proof.
  apply (every_path_run W (webhook Time_String r) s
           (λ tr _, Exists (λ ev, writes ev = true) tr →
                    ∃ req, accepted r req
                           ∧ (strings.HasPrefix (models.Command req) "Send" = true
                              ∨ strings.HasPrefix (models.Command req) "Sign Up" = true))).
  walk.
  all: try (exfalso;
            match goal with
            | Hw : Exists _ _ |- _ =>
                rewrite ?Exists_cons, Exists_nil in Hw; simpl in Hw; intuition congruence
            end).
  all: eexists; split;
    [split_and!; [|eassumption|]; apply String.eqb_eq; by apply negb_false_iff|auto].
Qed.

(** X6. The handler panics only on an accepted request whose command
    starts with "Read", and before any write.  The panic is a slice access
    with a negative index or the index equal to the length of the mailbox,
    or a nil message returned by [GetMessage] without an error. *)
Theorem webhook_panics_only_reading (r : http.Request) (s : S) (p : panic) :
  let out := run W (webhook Time_String r) s in
  result out = Panicked p →
  (∃ req, accepted r req ∧ strings.HasPrefix (models.Command req) "Read" = true)
  ∧ Forall (λ ev, writes ev = false) (trace out)
  ∧ (p = NilDereference
     ∨ ∃ i n, p = IndexOutOfRange i n ∧ ((i < 0)%Z ∨ i = Z.of_nat n)).
Proof.
  intros out. subst out. revert p.
  apply (every_path_run W (webhook Time_String r) s
           (λ tr o, ∀ p, o = Panicked p →
              (∃ req, accepted r req ∧ strings.HasPrefix (models.Command req) "Read" = true)
              ∧ Forall (λ ev, writes ev = false) tr
              ∧ (p = NilDereference
                 ∨ ∃ i n, p = IndexOutOfRange i n ∧ ((i < 0)%Z ∨ i = Z.of_nat n)))).
  walk.
  all: intros; simplify_eq.
  all: split_and!;
    [eexists; split; [|eassumption]; split_and!; [|eassumption|];
     apply String.eqb_eq; by apply negb_false_iff
    |repeat constructor|].
  all: try by left.
  all: right; do 2 eexists; (split; [done|]).
  all: repeat match goal with
              | H : (_ <? _)%Z = false |- _ => apply Z.ltb_ge in H
              | H : (_ <? _)%Z = true |- _ => apply Z.ltb_lt in H
              | H : _ !! _ = None |- _ => apply lookup_ge_None in H
              end.
  all: lia.
Qed.

(** X7. The sender is told "The message was sent successfully." exactly
    when the last call of the request was a [SaveMessage] that returned no
    error: no other branch produces that text, and a failed save never
    does. *)
Theorem webhook_confirmation_iff_saved (r : http.Request) (s : S) (w : http.ResponseWriter) :
  let out := run W (webhook Time_String r) s in
  result out = Returned w →
  (w = respond "The message was sent successfully."
   ↔ ∃ ev, last (trace out) = Some ev ∧ saved ev = true).
Proof.
  intros out. subst out. revert w.
  apply (every_path_run W (webhook Time_String r) s
           (λ tr o, ∀ w, o = Returned w →
              (w = respond "The message was sent successfully."
               ↔ ∃ ev, last tr = Some ev ∧ saved ev = true))).
  walk.
  all: intros; simplify_eq; simpl.
  all: split; [intros Hw|intros (ev & Hlast & Hsaved)]; simplify_eq; try done.
  all: by eexists.
Qed.

End Writes.

(** ** More on the parsers *)

Lemma Split_nil (sep : ascii) (s : string) :
  strings.Count s sep = O → strings.Split s sep = [s].
Proof. intros Hs. unfold strings.Split. by rewrite Hs. Qed.

Lemma Split_app (sep : ascii) (a r : string) :
  strings.Count a sep = O →
  strings.Split (a +:+ String sep r) sep = a :: strings.Split r sep.
Proof.
  intros Ha. unfold strings.Split.
  pose proof (Cut_app sep a r Ha) as Hcut.
  destruct (Cut_Some sep _ _ _ Hcut) as (_ & _ & ->).
  change (strings.SplitN ?s sep (S (S ?n))) with
    (match strings.Cut sep s with
     | Some (before, after) => before :: strings.SplitN after sep (S n)
     | None => [s]
     end).
  by rewrite Hcut.
Qed.

Lemma Atoi_range (s : string) (n : Z) :
  strconv.Atoi s = Some n → (strconv.minInt ≤ n ≤ strconv.maxInt)%Z.
Proof.
  unfold strconv.Atoi. intros H.
  repeat case_match; simplify_eq;
    match goal with
    | Hr : (_ && _)%bool = true |- _ =>
        apply andb_true_iff in Hr as [?%Z.leb_le ?%Z.leb_le]; lia
    end.
Qed.

Lemma parseReadCommand_words (command command' first first' second : string)
    (others others' : list string) :
  strings.Split command space = first :: second :: others →
  strings.Split command' space = first' :: second :: others' →
  parseReadCommand command = parseReadCommand command'.
Proof.
  intros Hparts Hparts'. unfold parseReadCommand. rewrite Hparts, Hparts'.
  by rewrite !decide_False by (simpl; lia).
Qed.

(** X8. [parseReadCommand] looks at the second word only: the first word
    need not be "Read", and whatever follows the second word is ignored. *)
Theorem parseReadCommand_second_word (first second rest : string) :
  strings.Count first space = O → strings.Count second space = O →
  parseReadCommand (first +:+ " " +:+ second) = parseReadCommand ("Read " +:+ second)
  ∧ parseReadCommand (first +:+ " " +:+ second +:+ " " +:+ rest)
    = parseReadCommand ("Read " +:+ second).
Proof.
  intros Hfirst Hsecond.
  assert (Hread : strings.Split ("Read " +:+ second) space = ["Read"; second]).
  { change ("Read " +:+ second) with ("Read" +:+ String space second).
    by rewrite (Split_app space "Read" second eq_refl), (Split_nil space second Hsecond). }
  split.
  - apply (parseReadCommand_words _ _ first "Read" second [] []); [|done].
    change (first +:+ " " +:+ second) with (first +:+ String space second).
    by rewrite (Split_app space first second Hfirst), (Split_nil space second Hsecond).
  - apply (parseReadCommand_words _ _ first "Read" second (strings.Split rest space) []);
      [|done].
    change (first +:+ " " +:+ second +:+ " " +:+ rest)
      with (first +:+ String space (second +:+ String space rest)).
    by rewrite (Split_app space first _ Hfirst), (Split_app space second rest Hsecond).
Qed.

(** X9. The result of [parseReadCommand] lies between -1 and the largest
    [int] minus one: the subtraction [index - 1] never wraps around, and no
    result below the invalid index exists. *)
Theorem parseReadCommand_range (command : string) :
  (-1 ≤ parseReadCommand command ≤ strconv.maxInt - 1)%Z.
Proof.
  assert (Hmax : (0 ≤ strconv.maxInt)%Z) by done.
  unfold parseReadCommand.
  destruct (decide _) as [Hshort|Hlong]; [lia|].
  destruct (strconv.Atoi _) as [index|] eqn:Hindex; [|lia].
  apply Atoi_range in Hindex. destruct (Z.ltb_spec index 1); lia.
Qed.

(** X10. The recipient returned by [parseSendCommand] never contains a
    space, and when it and the body are put back behind the first word of
    the command, the command is obtained again. *)
Theorem parseSendCommand_recipient (command : string) :
  strings.Count (parseSendCommand command).1 space = O
  ∧ ((3 ≤ length (strings.SplitN command space 3))%nat →
     ∃ keyword, strings.Count keyword space = O
       ∧ command = keyword +:+ " " +:+ (parseSendCommand command).1
                   +:+ " " +:+ (parseSendCommand command).2).
Proof.
  unfold parseSendCommand.
  destruct (decide _) as [Hshort|Hlong]; [split; [done|lia]|].
  pose proof (SplitN_3_le command) as Hle.
  destruct (strings.SplitN command space 3) as [|a [|b [|c [|d parts]]]] eqn:Hparts;
    simpl in *; try lia.
  apply SplitN_3_inv in Hparts as (-> & Ha & Hb).
  split; [done|]. intros _. by exists a.
Qed.

(** ** More on the branches *)


Section MoreBranches.

Context {S : Type} (W : World S).
Variable Time_String : time.Time → string.

(** X11. The three keywords exclude one another, so each selects its
    branch whatever the order of the cases: a command that starts with
    "Send", "Read" or "Sign Up" is handled by that branch, and only a
    command that starts with none of them is a status query. *)
Theorem dispatch_by_keyword (req : models.Request) :
  let command := models.Command req in
  (strings.HasPrefix command "Send" = true → dispatch Time_String req = sendBranch req)
  ∧ (strings.HasPrefix command "Read" = true →
     dispatch Time_String req = readBranch Time_String req)
  ∧ (strings.HasPrefix command "Sign Up" = true → dispatch Time_String req = signUpBranch req)
  ∧ (strings.HasPrefix command "Send" = false →
     strings.HasPrefix command "Read" = false →
     strings.HasPrefix command "Sign Up" = false →
     dispatch Time_String req = defaultBranch req)
  ∧ (strings.HasPrefix command "Send" = true → strings.HasPrefix command "Read" = false
     ∧ strings.HasPrefix command "Sign Up" = false)
  ∧ (strings.HasPrefix command "Read" = true → strings.HasPrefix command "Sign Up" = false).
Proof.
  intros command. unfold dispatch. fold command. split_and!.
  - by intros ->.
  - intros Hread. by rewrite (Read_not_Send _ Hread), Hread.
  - intros Hsign. destruct (SignUp_not_Send_Read _ Hsign) as [-> ->]. by rewrite Hsign.
  - by intros -> -> ->.
  - by intros [rest ->]%HasPrefix_inv.
  - by intros [rest ->]%HasPrefix_inv.
Qed.





End MoreBranches.

(** ** The earlier handlers *)

Section Earlier.

Context {S : Type} (W : World S).



End Earlier.

Section Agreement.

Context {S : Type} (W : World S).
Variable Time_String : time.Time → string.

(** X17. On a command that starts with none of the keywords, the handler
    with commands behaves as the handler that only counts the mailbox did:
    the same calls with the same answers, the same final state of the
    environment, the same status, and an envelope in the same cases.  Only
    the wording of the count differs. *)
Theorem default_agrees_with_Listing (r : http.Request) (req : models.Request) (s : S) :
  accepted r req →
  strings.HasPrefix (models.Command req) "Send" = false →
  strings.HasPrefix (models.Command req) "Read" = false →
  strings.HasPrefix (models.Command req) "Sign Up" = false →
  let new := run W (webhook Time_String r) s in
  let old := run W (Listing.webhook r) s in
  trace new = trace old
  ∧ final new = final old
  ∧ ∃ w w', result new = Returned w ∧ result old = Returned w'
            ∧ http.statusCode w = http.statusCode w'
            ∧ http.header w = http.header w'
            ∧ (http.body w = None ↔ http.body w' = None).
Proof.
  intros (Hm & Hb & Ht) Hsend Hread Hsign new old. subst new old.
  unfold webhook, Listing.webhook, dispatch, defaultBranch.
  rewrite Hm, Hb, Ht, Hsend, Hread, Hsign. simpl.
  destruct (answer W (ListMessages (models.UserID req)) s) as [[messages [e|]] s1]; simpl.
  { split_and!; try done. by do 2 eexists. }
  destruct (models.New req); simpl.
  2:{ split_and!; try done. by do 2 eexists. }
  destruct (answer W (LoadLocation (models.Timezone req)) s1) as [[tz|] s2]; simpl.
  2:{ split_and!; try done. by do 2 eexists. }
  destruct (answer W Now s2) as [now s3]; simpl.
  destruct (time.Clock now tz) as [[hour minute] second]; simpl.
  split_and!; try done. by do 2 eexists.
Qed.

(** X18. With an empty mailbox the handler that counts the mailbox answers
    exactly what the handler without a store answered: after the listing,
    the two make the same calls and write the same response. *)
Theorem Listing_agrees_with_Stateless (r : http.Request) (req : models.Request) (s s1 : S) :
  accepted r req →
  answer W (ListMessages (models.UserID req)) s = (([], None), s1) →
  let old := run W (Stateless.webhook r) s1 in
  run W (Listing.webhook r) s
    = (result old, final old, Event (ListMessages (models.UserID req)) ([], None) :: trace old).
Proof.
  intros (Hm & Hb & Ht) Hlist old. subst old.
  unfold Listing.webhook, Stateless.webhook.
  rewrite Hm, Hb, Ht. simpl. rewrite Hlist. simpl.
  destruct (models.New req); simpl; [|done].
  destruct (answer W (LoadLocation (models.Timezone req)) s1) as [[tz|] s2]; simpl; [|done].
  destruct (answer W Now s2) as [now s3]; simpl.
  by destruct (time.Clock now tz) as [[hour minute] second].
Qed.

End Agreement.

(** ** The further properties at work *)


Lemma webhook_500_iff_store_failure_witness :
  ∃ ev, last (trace (run downWorld (webhook unixString (post "Read 1" false "u1" "UTC")) 0))
          = Some ev
        ∧ failed ev = true.
Proof.
  exact (proj1 (proj1 (proj2 (webhook_500_iff_store_failure downWorld unixString
                                (post "Read 1" false "u1" "UTC") 0) _ eq_refl)) eq_refl).
Defined.

Lemma webhook_400_iff_witness :
  let out := run MemStore.world (webhook unixString (post "hello" true "u1" "Mars/Base"))
               emptyStore in
  (http.Method (post "hello" true "u1" "Mars/Base") = "POST"
   ∧ http.Body (post "hello" true "u1" "Mars/Base") = None ∧ trace out = [])
  ∨ (∃ ev, last (trace out) = Some ev ∧ zone_missing ev = true).
Proof.
  exact (proj1 (webhook_400_iff MemStore.world unixString
                  (post "hello" true "u1" "Mars/Base") emptyStore _ eq_refl) eq_refl).
Defined.

Lemma webhook_writes_only_on_send_and_sign_up_witness :
  ∃ req, accepted (post "Sign Up John" true "u1" "UTC") req
         ∧ (strings.HasPrefix (models.Command req) "Send" = true
            ∨ strings.HasPrefix (models.Command req) "Sign Up" = true).
Proof.
  apply (webhook_writes_only_on_send_and_sign_up MemStore.world unixString
           (post "Sign Up John" true "u1" "UTC") emptyStore).
  change (Exists (λ ev, writes ev = true) [Event (RegisterUser "u1" "John") None]).
  by apply Exists_cons_hd.
Defined.

Lemma webhook_panics_only_reading_witness :
  (∃ req, accepted (post "Read 1" false "u1" "UTC") req
          ∧ strings.HasPrefix (models.Command req) "Read" = true)
  ∧ Forall (λ ev, writes ev = false)
      (trace (run MemStore.world (webhook unixString (post "Read 1" false "u1" "UTC"))
                emptyStore))
  ∧ (IndexOutOfRange 0 0 = NilDereference
     ∨ ∃ i n, IndexOutOfRange 0 0 = IndexOutOfRange i n ∧ ((i < 0)%Z ∨ i = Z.of_nat n)).
Proof.
  exact (webhook_panics_only_reading MemStore.world unixString
           (post "Read 1" false "u1" "UTC") emptyStore (IndexOutOfRange 0 0) eq_refl).
Defined.

Lemma webhook_confirmation_iff_saved_witness :
  ∃ ev, last (trace (run MemStore.world
                       (webhook unixString (post "Send John Hello there" false "u2" "UTC"))
                       johnStore)) = Some ev
        ∧ saved ev = true.
Proof.
  exact (proj1 (webhook_confirmation_iff_saved MemStore.world unixString
                  (post "Send John Hello there" false "u2" "UTC") johnStore _ eq_refl)
           eq_refl).
Defined.

Lemma parseReadCommand_second_word_witness :
  parseReadCommand "Delete 3" = parseReadCommand "Read 3"
  ∧ parseReadCommand "Delete 3 right now" = parseReadCommand "Read 3".
Proof.
  exact (parseReadCommand_second_word "Delete" "3" "right now" eq_refl eq_refl).
Defined.

Lemma parseSendCommand_recipient_witness :
  ∃ keyword, strings.Count keyword space = O
    ∧ "Send John Hello there"
      = keyword +:+ " " +:+ (parseSendCommand "Send John Hello there").1
        +:+ " " +:+ (parseSendCommand "Send John Hello there").2.
Proof.
  apply (parseSendCommand_recipient "Send John Hello there"). simpl. lia.
Defined.

Lemma dispatch_by_keyword_witness :
  dispatch unixString (utterance "Send John hi" false "u2" "UTC")
    = sendBranch (utterance "Send John hi" false "u2" "UTC")
  ∧ dispatch unixString (utterance "Read 1" false "u2" "UTC")
    = readBranch unixString (utterance "Read 1" false "u2" "UTC")
  ∧ dispatch unixString (utterance "Sign Up John" false "u2" "UTC")
    = signUpBranch (utterance "Sign Up John" false "u2" "UTC")
  ∧ dispatch unixString (utterance "hello" false "u2" "UTC")
    = defaultBranch (utterance "hello" false "u2" "UTC").
Proof.
  split_and!.
  - exact (proj1 (dispatch_by_keyword unixString (utterance "Send John hi" false "u2" "UTC"))
             eq_refl).
  - exact (proj1 (proj2 (dispatch_by_keyword unixString
                           (utterance "Read 1" false "u2" "UTC"))) eq_refl).
  - exact (proj1 (proj2 (proj2 (dispatch_by_keyword unixString
                                  (utterance "Sign Up John" false "u2" "UTC")))) eq_refl).
  - exact (proj1 (proj2 (proj2 (proj2 (dispatch_by_keyword unixString
                                         (utterance "hello" false "u2" "UTC")))))
             eq_refl eq_refl eq_refl).
Defined.




Lemma default_agrees_with_Listing_witness :
  let new := run MemStore.world (webhook unixString (post "hello" true "u1" "Europe/Moscow"))
               oneMessageStore in
  let old := run MemStore.world (Listing.webhook (post "hello" true "u1" "Europe/Moscow"))
               oneMessageStore in
  result new
    = Returned (respond "Exact time 1 hours, 13 minutes. There are 1 new messages.")
  ∧ result old
    = Returned (respond "Exact time 1 hours, 13 minutes. There are 1 new messages for you.")
  ∧ trace new = trace old ∧ final new = final old.
Proof.
  pose proof (default_agrees_with_Listing MemStore.world unixString
                (post "hello" true "u1" "Europe/Moscow")
                (utterance "hello" true "u1" "Europe/Moscow") oneMessageStore
                (conj eq_refl (conj eq_refl eq_refl)) eq_refl eq_refl eq_refl)
    as (Htrace & Hfinal & _).
  split_and!; [reflexivity|reflexivity|exact Htrace|exact Hfinal].
Defined.

Lemma Listing_agrees_with_Stateless_witness :
  let old := run MemStore.world (Stateless.webhook (post "hello" true "u1" "Europe/Moscow"))
               emptyStore in
  result old
    = Returned (respond "Exact time 1 hours, 13 minutes. There are no new messages for you.")
  ∧ run MemStore.world (Listing.webhook (post "hello" true "u1" "Europe/Moscow")) emptyStore
    = (result old, final old, Event (ListMessages "u1") ([], None) :: trace old).
Proof.
  split; [reflexivity|].
  exact (Listing_agrees_with_Stateless MemStore.world
           (post "hello" true "u1" "Europe/Moscow")
           (utterance "hello" true "u1" "Europe/Moscow") emptyStore emptyStore
           (conj eq_refl (conj eq_refl eq_refl)) eq_refl).
Defined.
